(** * DocumentScraper (backend/pdf2emb_nlp/scraper.py): model and properties

    The Python class [DocumentScraper] reads one PDF, cleans the text of
    every page with a find/replace dictionary and puts the pages in a
    one-column DataFrame.  This development embeds the class in Rocq:

    - Python [str] values are lists of Unicode code points, with the
      built-ins [str.replace], [str.strip] and [in] written out;
    - the dictionary [open_json] is an association list in insertion order,
      the order in which [dict.items()] iterates;
    - the file system, the S3 store, [json.load] and [slate3k.PDF] are the
      fields of an environment record, since they are not part of the
      repository;
    - open file handles and the messages given to the logger are the mutable
      state, threaded by a small state-and-exception monad. *)

From Stdlib Require Import List String Ascii NArith Arith Bool Lia.
From stdpp Require Import base list.
Import ListNotations.

Local Open Scope list_scope.
Local Open Scope nat_scope.

(** ** Python strings *)

Module PyStr.

(** A character is a Unicode code point, a [str] is a sequence of them. *)
Definition char := N.
Definition pystr := list char.

(** A string literal of the source, as a [pystr]. *)
Definition str (s : string) : pystr :=
  List.map N_of_ascii (list_ascii_of_string s).

(** [str.isspace] on one character: the code points CPython's
    [_PyUnicode_IsWhitespace] accepts, which are those [str.strip()]
    removes. *)
Definition isspace (c : char) : bool :=
  ((0x09 <=? c) && (c <=? 0x0D) || (0x1C <=? c) && (c <=? 0x20)
   || (c =? 0x85) || (c =? 0xA0) || (c =? 0x1680)
   || (0x2000 <=? c) && (c <=? 0x200A)
   || (c =? 0x2028) || (c =? 0x2029) || (c =? 0x202F) || (c =? 0x205F)
   || (c =? 0x3000))%N.

(** [s.lstrip()]: drop characters from the left while they are whitespace. *)
Fixpoint str_lstrip (s : pystr) : pystr :=
  match s with
  | [] => []
  | c :: s' => if isspace c then str_lstrip s' else s
  end.

(** [s.rstrip()]: the same scan from the right end. *)
Definition str_rstrip (s : pystr) : pystr := rev (str_lstrip (rev s)).

(** [s.strip()]: both ends. *)
Definition str_strip (s : pystr) : pystr := str_rstrip (str_lstrip s).

(** [s.startswith(p)]. *)
Fixpoint startswith (p s : pystr) : bool :=
  match p, s with
  | [], _ => true
  | _ :: _, [] => false
  | a :: p', b :: s' => (a =? b)%N && startswith p' s'
  end.

(** [sub in s]: [sub] occurs in [s] as a substring. *)
Fixpoint str_in (sub s : pystr) : bool :=
  startswith sub s ||
  match s with
  | [] => false
  | _ :: s' => str_in sub s'
  end.

(** The scan of [s.replace(old, new)] for a non-empty [old]: left to right,
    at an occurrence of [old] emit [new] and jump over the occurrence
    ([skip] counts the characters of it still to jump over), elsewhere copy
    the character. *)
Fixpoint replace_scan (old new : pystr) (skip : nat) (s : pystr) : pystr :=
  match s with
  | [] => []
  | c :: s' =>
      match skip with
      | S k => replace_scan old new k s'
      | O =>
          if startswith old s
          then new ++ replace_scan old new (length old - 1) s'
          else c :: replace_scan old new 0 s'
      end
  end.

(** [s.replace("", new)]: [new] before every character and at the end. *)
Fixpoint replace_empty (new s : pystr) : pystr :=
  match s with
  | [] => new
  | c :: s' => new ++ c :: replace_empty new s'
  end.

(** [s.replace(old, new)], every occurrence (no count argument). *)
Definition str_replace (s old new : pystr) : pystr :=
  match old with
  | [] => replace_empty new s
  | _ :: _ => replace_scan old new 0 s
  end.

End PyStr.
Export PyStr.

(** ** Exceptions, the environment and the mutable state *)

(** What the built-in [open] raises. *)
Inductive os_error := FileNotFoundError | IsADirectoryError | PermissionError.

(** What [json.load] raises on a file that is not JSON text. *)
Inductive json_error := JSONDecodeError | UnicodeDecodeError.

(** The exceptions of the program.  [ParserError] stands for whatever
    [slate3k.PDF] (pdfminer underneath) raises on a document it cannot
    parse; its argument is the name of the exception class. *)
Inductive exn :=
| AssertionError (msg : string)
| OSError (e : os_error)
| JSONError (e : json_error)
| ParserError (what : string).

(** [Dict[str, str]]: the pairs in insertion order, as [dict.items()] yields
    them. *)
Definition dict := list (pystr * pystr).

(** A path of the local file system names nothing, a directory or a file. *)
Inductive node :=
| Absent
| Directory
| File (readable : bool) (content : list Byte.byte).

(** The object [slate3k.PDF(f)] makes: what [len] reports, the page texts
    iteration yields, and the exception (if any) iteration ends with. *)
Record PDF := {
  PDF_len : nat;
  PDF_pages : list pystr;
  PDF_iter_error : option string
}.

(** Everything the program reads and does not own. *)
Record Env := {
  local_fs : pystr -> node;
  s3_bucket : pystr -> option (list Byte.byte);
  json_load_bytes : list Byte.byte -> json_error + dict;
  slate3k_PDF_bytes : list Byte.byte -> string + PDF
}.

(** A file handle is the index of its entry in the table of handles. *)
Inductive handle_state := Opened | Closed.

Inductive level := DEBUG | INFO | WARNING.

(** The messages of the source, with the values their f-strings insert. *)
Inductive message :=
| No_json_provided
| Reading_json (json_filename : pystr)
| Reading_page (number : nat) (pdf_name : pystr)
| Not_scraped (path : pystr)
| Starting_scraping.

Record State := {
  handles : list handle_state;
  log : list (level * message)
}.

Definition initial_state : State := {| handles := []; log := [] |}.

(** An open file object: its handle and the bytes behind it. *)
Record file := { fileno : nat; content : list Byte.byte }.

(** ** The monad: state and exceptions *)

Inductive outcome (A : Type) :=
| Return (a : A)
| Raise (e : exn).
Arguments Return {A} a.
Arguments Raise {A} e.

Definition Py (A : Type) : Type := State -> outcome A * State.

Definition ret {A} (a : A) : Py A := fun st => (Return a, st).

Definition raise {A} (e : exn) : Py A := fun st => (Raise e, st).

Definition bind {A B} (c : Py A) (k : A -> Py B) : Py B :=
  fun st =>
    match c st with
    | (Return a, st') => k a st'
    | (Raise e, st') => (Raise e, st')
    end.

(** [try: c finally: f]. *)
Definition finally {A} (c : Py A) (f : Py unit) : Py A :=
  fun st =>
    match c st with
    | (r, st') =>
        match f st' with
        | (Return _, st'') => (r, st'')
        | (Raise e, st'') => (Raise e, st'')
        end
    end.

Declare Scope py_scope.
Delimit Scope py_scope with py.
Notation "x <- c ;; k" := (bind c (fun x => k))
  (at level 100, c at next level, right associativity) : py_scope.
Notation "c ;;; k" := (bind c (fun _ => k))
  (at level 100, right associativity) : py_scope.
Local Open Scope py_scope.

(** [assert cond, msg]. *)
Definition assert (cond : bool) (msg : string) : Py unit :=
  if cond then ret tt else raise (AssertionError msg).

(** [logger.debug], [logger.info], [logger.warning]. *)
Definition logger (lv : level) (m : message) : Py unit :=
  fun st => (Return tt, {| handles := handles st; log := log st ++ [(lv, m)] |}).

(** [f.close()]. *)
Definition close (f : file) : Py unit :=
  fun st =>
    (Return tt, {| handles := <[fileno f := Closed]> (handles st); log := log st |}).

(** ** pandas: Series and DataFrame *)

(** A [pd.Series] of strings with the default integer index: a name and the
    values in index order. *)
Record Series := {
  Series_name : option pystr;
  Series_values : list pystr
}.

(** [pd.Series()]. *)
Definition Series_empty : Series := {| Series_name := None; Series_values := [] |}.

(** [pd.Series(text)] for a scalar string: one row. *)
Definition Series_of_scalar (text : pystr) : Series :=
  {| Series_name := None; Series_values := [text] |}.

(** [a.append(b, ignore_index=True)]: the rows of [a] then those of [b],
    renumbered; the name is kept when both have the same one. *)
Definition Series_append (a b : Series) : Series :=
  {| Series_name :=
       if decide (Series_name a = Series_name b) then Series_name a else None;
     Series_values := Series_values a ++ Series_values b |}.

(** [s.rename(name, inplace=True)] with a scalar [name]. *)
Definition Series_rename (s : Series) (name : pystr) : Series :=
  {| Series_name := Some name; Series_values := Series_values s |}.

(** A cell of a table is a string or the null marker [nan] ([None]). *)
Definition cell := option pystr.

(** A [pd.DataFrame] with the default integer index: the columns in order,
    each with its key. *)
Record DataFrame := { columns : list (option pystr * list cell) }.

(** [pd.DataFrame()]. *)
Definition DataFrame_empty : DataFrame := {| columns := [] |}.

(** The number of rows: the length of the longest column. *)
Definition DataFrame_rows (df : DataFrame) : nat :=
  foldr (fun c n => Nat.max (length (snd c)) n) 0 (columns df).

(** Fill a column with [nan] down to row [n]. *)
Definition pad (n : nat) (col : list cell) : list cell :=
  col ++ repeat None (n - length col).

(** [pd.concat([df, series], axis=1)]: the series becomes a new last column
    under its name; the index is the union of both, and rows a column lacks
    are [nan]. *)
Definition concat_axis1 (df : DataFrame) (s : Series) : DataFrame :=
  let n := Nat.max (DataFrame_rows df) (length (Series_values s)) in
  {| columns :=
       List.map (fun c => (fst c, pad n (snd c))) (columns df)
       ++ [(Series_name s, pad n (List.map Some (Series_values s)))] |}.

(** ** The class DocumentScraper *)

Record DocumentScraper := {
  path : pystr;
  open_json : dict;
  from_s3_bucket : bool
}.

(** [_clean_text]: the loop over [self.open_json.items()] is the left fold,
    then [strip]. *)
Definition _clean_text (self : DocumentScraper) (text : pystr) : pystr :=
  let text := fold_left (fun text kv => str_replace text (fst kv) (snd kv))
                        (open_json self) text in
  let text := str_strip text in
  text.

Section Program.

Variable env : Env.

(** [os.path.exists(p)]. *)
Definition os_path_exists (p : pystr) : Py bool :=
  ret (match local_fs env p with Absent => false | _ => true end).

(** [os.path.join(p)] with one argument is [p]. *)
Definition os_path_join (p : pystr) : pystr := p.

(** The built-in [open(p, mode)] for reading: a new entry in the table of
    handles, or an [OSError]. *)
Definition open (p : pystr) : Py file :=
  fun st =>
    match local_fs env p with
    | Absent => (Raise (OSError FileNotFoundError), st)
    | Directory => (Raise (OSError IsADirectoryError), st)
    | File false _ => (Raise (OSError PermissionError), st)
    | File true bytes =>
        (Return {| fileno := length (handles st); content := bytes |},
         {| handles := handles st ++ [Opened]; log := log st |})
    end.

(** [with open(p, mode) as f: body]. *)
Definition with_open {A} (p : pystr) (body : file -> Py A) : Py A :=
  f <- open p ;; finally (body f) (close f).

(** [json.load(f)]. *)
Definition json_load (f : file) : Py dict :=
  match json_load_bytes env (content f) with
  | inl e => raise (JSONError e)
  | inr d => ret d
  end.

(** [slate3k.PDF(f)]. *)
Definition slate3k_PDF (f : file) : Py PDF :=
  match slate3k_PDF_bytes env (content f) with
  | inl what => raise (ParserError what)
  | inr reader => ret reader
  end.

Definition _read_config (json_filename : option pystr) : Py dict :=
  match json_filename with
  | None =>
      logger WARNING No_json_provided ;;;
      ret []
  | Some json_filename =>
      logger INFO (Reading_json json_filename) ;;;
      assert (str_in (str ".json") json_filename)
        "The json_filename provided does not correspond to a .json file." ;;;
      with_open json_filename (fun file => json_load file)
  end.

Definition __init__ (path : pystr) (json_filename : option pystr)
    (from_s3_bucket : bool) : Py DocumentScraper :=
  open_json <- _read_config json_filename ;;
  ret {| path := path; open_json := open_json; from_s3_bucket := from_s3_bucket |}.

(** The body of [for i, page in enumerate(pdf_reader)], from index [i] on:
    [pages] are the texts still to come and [iter_error] what the iterator
    raises after them. *)
Fixpoint for_pages (self : DocumentScraper) (pdf_name : pystr) (i : nat)
    (pages : list pystr) (iter_error : option string)
    (document_series : Series) : Py Series :=
  match pages with
  | [] =>
      match iter_error with
      | None => ret document_series
      | Some what => raise (ParserError what)
      end
  | page :: pages' =>
      logger DEBUG (Reading_page (i + 1) pdf_name) ;;;
      let page_text := _clean_text self page in
      let page_series := Series_of_scalar page_text in
      let document_series := Series_append document_series page_series in
      for_pages self pdf_name (S i) pages' iter_error document_series
  end.

Definition _text_to_series_of_pages (self : DocumentScraper)
    (pdf_name : pystr) : Py (Series * nat) :=
  let document_series := Series_empty in
  pdf <- open (os_path_join (path self)) ;;
  pdf_reader <- slate3k_PDF pdf ;;
  let num_pages := PDF_len pdf_reader in
  document_series <-
    for_pages self pdf_name 0 (PDF_pages pdf_reader)
      (PDF_iter_error pdf_reader) document_series ;;
  close pdf ;;;
  ret (document_series, num_pages).

(** [isinstance(series, pd.Series)] holds of every [Series], so the branch
    of the source is always taken. *)
Definition document_corpus_to_pandas_df (self : DocumentScraper) : Py DataFrame :=
  let df := DataFrame_empty in
  exists_ <- os_path_exists (path self) ;;
  if negb exists_ then
    logger WARNING (Not_scraped (path self)) ;;;
    ret df
  else
    logger INFO Starting_scraping ;;;
    let file := path self in
    r <- _text_to_series_of_pages self file ;;
    let series := Series_rename (fst r) (str_replace file (str ".pdf") (str "")) in
    let df := concat_axis1 df series in
    ret df.

End Program.

(** ** The specification's vocabulary

    The definitions of this part follow the words of the specification, not
    the source; the theorems compare them with the program. *)

Module Spec.

(** How many whitespace characters a text starts with. *)
Fixpoint leading_whitespace (T : pystr) : nat :=
  match T with
  | [] => 0
  | c :: T' => if isspace c then S (leading_whitespace T') else 0
  end.

(** How many whitespace characters a text ends with. *)
Definition trailing_whitespace (T : pystr) : nat := leading_whitespace (rev T).

(** Trimming: the text without its leading and its trailing whitespace, that
    is the slice between the two runs. *)
Definition trim (T : pystr) : pystr :=
  let a := leading_whitespace T in
  let b := trailing_whitespace T in
  firstn (length T - a - b) (skipn a T).

(** The pieces of [T] between the occurrences of a non-empty [find], taken
    leftmost first and not overlapping ([skip] characters of the current
    occurrence are still to pass). *)
Fixpoint pieces (find : pystr) (skip : nat) (T : pystr) : list pystr :=
  match T with
  | [] => [[]]
  | c :: T' =>
      match skip with
      | S k => pieces find k T'
      | O =>
          if startswith find T then [] :: pieces find (length find - 1) T'
          else
            match pieces find 0 T' with
            | [] => [[c]]
            | p :: ps => (c :: p) :: ps
            end
      end
  end.

(** The empty string occurs between any two characters and at both ends. *)
Definition pieces_of_empty (T : pystr) : list pystr :=
  [] :: List.map (fun c => [c]) T ++ [[]].

(** The pieces glued together again with [sep] between them. *)
Fixpoint glue (sep : pystr) (ps : list pystr) : pystr :=
  match ps with
  | [] => []
  | [p] => p
  | p :: ps' => p ++ sep ++ glue sep ps'
  end.

(** Literal substring replacement: every occurrence of [find] in [T] gives
    way to [replace]. *)
Definition replace_literal (T find replace : pystr) : pystr :=
  match find with
  | [] => glue replace (pieces_of_empty T)
  | _ :: _ => glue replace (pieces find 0 T)
  end.

(** The pairs of the mapping applied one after the other, in the order of
    the mapping. *)
Fixpoint applyReplacements (T : pystr) (M : dict) : pystr :=
  match M with
  | [] => T
  | (find, replace) :: M' => applyReplacements (replace_literal T find replace) M'
  end.

(** The pair [p] refers to the pair [q]: the replacement of [p] contains the
    find-string of [q], so that applying [p] makes [q] applicable. *)
Definition refers_to (p q : pystr * pystr) : bool := str_in (fst q) (snd p).

(** [q] is reached from [p] by at most [n] references through pairs of [M]. *)
Fixpoint reaches (M : dict) (n : nat) (p q : pystr * pystr) : bool :=
  match n with
  | O => false
  | S n' => refers_to p q || existsb (fun r => refers_to p r && reaches M n' r q) M
  end.

(** No pair of the mapping refers back to itself, directly or through other
    pairs. *)
Definition no_replacement_cycles (M : dict) : bool :=
  forallb (fun p => negb (reaches M (length M) p p)) M.

(** [os.path.basename]: what follows the last ['/'] of a path. *)
Fixpoint basename (p : pystr) : pystr :=
  match p with
  | [] => []
  | _ :: p' => if existsb (N.eqb 0x2F) p then basename p' else p
  end.

(** A name without its [ext] ending, when it has one. *)
Definition without_extension (ext name : pystr) : pystr :=
  if startswith (rev ext) (rev name)
  then firstn (length name - length ext) name
  else name.

(** The document identifier: the base filename without the PDF extension. *)
Definition document_identifier (p : pystr) : pystr :=
  without_extension (str ".pdf") (basename p).

(** A name indicates a JSON-typed resource when it is the name of a .json
    file: it ends with the extension ".json". *)
Definition indicates_json (name : pystr) : bool :=
  startswith (rev (str ".json")) (rev name).

End Spec.


(** ** Auxiliary definitions of the proofs *)

(** A text that does not start with whitespace. *)
Definition head_not_space (s : pystr) : Prop :=
  match s with
  | [] => True
  | c :: _ => isspace c = false
  end.

(** The debug messages of the page loop for [n] pages from index [i] on. *)
Definition page_log (pdf_name : pystr) (i n : nat) : list (level * message) :=
  List.map (fun j => (DEBUG, Reading_page (j + 1) pdf_name)) (seq i n).

(** The state after a file was opened and left open. *)
Definition left_open (st : State) (new_log : list (level * message)) : State :=
  {| handles := handles st ++ [Opened]; log := log st ++ new_log |}.

(** The state after a file was opened and closed again. *)
Definition opened_and_closed (st : State) (new_log : list (level * message)) : State :=
  {| handles := handles st ++ [Closed]; log := log st ++ new_log |}.

(** The document cannot be parsed: [slate3k.PDF] raises on its bytes, or the
    iteration over its pages does. *)
Definition unparsable (env : Env) (bytes : list Byte.byte) (what : string) : Prop :=
  slate3k_PDF_bytes env bytes = inl what
  \/ exists reader,
       slate3k_PDF_bytes env bytes = inr reader
       /\ PDF_iter_error reader = Some what.

(** ** A concrete environment for the examples *)

Module Example.

(** The bytes of a PDF the parser accepts, of one it rejects, and of a JSON
    configuration file. *)
Definition good_pdf : list Byte.byte := list_byte_of_string "%PDF-1.4 report".
Definition broken_pdf : list Byte.byte := list_byte_of_string "not a pdf".
Definition clean_json : list Byte.byte :=
  Byte.x7b :: Byte.x22 :: list_byte_of_string "Dr."
  ++ Byte.x22 :: list_byte_of_string ": "
  ++ Byte.x22 :: list_byte_of_string "Dr" ++ [Byte.x22; Byte.x7d].

Definition bytes_eqb (a b : list Byte.byte) : bool :=
  if List.list_eq_dec Byte.byte_eq_dec a b then true else false.

(** Two pages, reported as two. *)
Definition report : PDF :=
  {| PDF_len := 2;
     PDF_pages := [str "  Dr. Smith arrived.  "; str "He left. "];
     PDF_iter_error := None |}.

(** The local disk holds docs/report.pdf, docs/broken.pdf, cfg/clean.json
    and notes.txt; the S3 store holds another document, which is not on the
    local disk. *)
Definition env : Env :=
  {| local_fs := fun p =>
       if decide (p = str "docs/report.pdf") then File true good_pdf
       else if decide (p = str "docs/broken.pdf") then File true broken_pdf
       else if decide (p = str "cfg/clean.json") then File true clean_json
       else if decide (p = str "notes.txt") then File true clean_json
       else if decide (p = str "docs") then Directory
       else Absent;
     s3_bucket := fun p =>
       if decide (p = str "s3://bucket/remote.pdf") then Some good_pdf
       else if decide (p = str "bucket/remote.pdf") then Some good_pdf
       else None;
     json_load_bytes := fun b =>
       if bytes_eqb b clean_json then inr [(str "Dr.", str "Dr")]
       else inl JSONDecodeError;
     slate3k_PDF_bytes := fun b =>
       if bytes_eqb b good_pdf then inr report else inl "PDFSyntaxError"%string |}.

Definition scraper (p : string) (from_s3 : bool) : DocumentScraper :=
  {| path := str p; open_json := [(str "Dr.", str "Dr")]; from_s3_bucket := from_s3 |}.

End Example.

(** ** A second environment: a configuration file that is not JSON *)

Module Example2.

(** The local disk holds cfg/bad.json, whose content [json.load] rejects. *)
Definition env : Env :=
  {| local_fs := fun p =>
       if decide (p = str "cfg/bad.json") then File true Example.broken_pdf
       else Absent;
     s3_bucket := fun _ => None;
     json_load_bytes := fun _ => inl JSONDecodeError;
     slate3k_PDF_bytes := fun _ => inl "PDFSyntaxError"%string |}.

End Example2.

(** ** A third environment: JSON content under names that are not .json files *)

Module Example3.

(** The local disk holds the JSON object of [Example.clean_json] under the
    names cfg/clean.json.bak and my.json.d/readme.txt. *)
Definition env : Env :=
  {| local_fs := fun p =>
       if decide (p = str "cfg/clean.json.bak") then File true Example.clean_json
       else if decide (p = str "my.json.d/readme.txt")
            then File true Example.clean_json
       else Absent;
     s3_bucket := fun _ => None;
     json_load_bytes := json_load_bytes Example.env;
     slate3k_PDF_bytes := slate3k_PDF_bytes Example.env |}.

End Example3.

(** ** Mappings of single characters *)

(** The characters of the find-strings of a mapping. *)
Definition find_characters (M : dict) : list char := concat (List.map fst M).

(** Every find-string of the mapping is one character, and no replacement
    contains a character that is a find-string. *)
Definition character_mapping (M : dict) : bool :=
  forallb
    (fun kv =>
       (length (fst kv) =? 1)
       && forallb (fun c => negb (existsb (N.eqb c) (find_characters M))) (snd kv))
    M.

(** ** The built-ins on examples *)

Example replace_leftmost_first :
  str_replace (str "aaa") (str "aa") (str "b") = str "ba".
Proof. reflexivity. Qed.

Example replace_empty_old :
  str_replace (str "abc") (str "") (str "-") = str "-a-b-c-".
Proof. reflexivity. Qed.

Example strip_both_ends :
  str_strip (str "  Dr. Smith arrived.  ") = str "Dr. Smith arrived."
  /\ str_strip (str "   ") = str "".
Proof. split; reflexivity. Qed.

Example document_identifier_of_path :
  Spec.document_identifier (str "docs/a/report.pdf") = str "report"
  /\ Spec.document_identifier (str "report.pdf") = str "report".
Proof. split; reflexivity. Qed.
(** ** Facts about the string built-ins *)

Section StringFacts.

Implicit Types s t old new : pystr.

Lemma lstrip_is_skipn s : str_lstrip s = skipn (Spec.leading_whitespace s) s.
Proof.
  induction s as [|c s IH]; simpl; [reflexivity|].
  destruct (isspace c); simpl; [exact IH | reflexivity].
Qed.

Lemma leading_whitespace_le s : Spec.leading_whitespace s <= length s.
Proof.
  induction s as [|c s IH]; simpl; [lia|].
  destruct (isspace c); simpl; lia.
Qed.

Lemma leading_whitespace_app s t :
  Spec.leading_whitespace s < length s ->
  Spec.leading_whitespace (s ++ t) = Spec.leading_whitespace s.
Proof.
  induction s as [|c s IH]; simpl; [lia|].
  destruct (isspace c); simpl; intros H; [f_equal; apply IH; lia | reflexivity].
Qed.

Lemma leading_whitespace_lt s c :
  In c s -> isspace c = false -> Spec.leading_whitespace s < length s.
Proof.
  induction s as [|d s IH]; simpl; [tauto|].
  intros [->|Hin] Hc.
  - rewrite Hc. lia.
  - destruct (isspace d); [|lia]. specialize (IH Hin Hc). lia.
Qed.

(** Whatever whitespace is taken from the front, the whitespace at the back
    is the same, unless nothing is left. *)
Lemma trailing_whitespace_lstrip s :
  Spec.leading_whitespace s < length s ->
  Spec.trailing_whitespace (skipn (Spec.leading_whitespace s) s)
  = Spec.trailing_whitespace s.
Proof.
  intros Hlt. unfold Spec.trailing_whitespace.
  rewrite <- (firstn_skipn (Spec.leading_whitespace s) s) at 3.
  rewrite rev_app_distr. symmetry. apply leading_whitespace_app.
  revert Hlt. induction s as [|c s IH]; simpl; [lia|].
  destruct (isspace c) eqn:E; simpl; intros Hlt.
  - apply IH. lia.
  - apply (leading_whitespace_lt _ c); [|exact E].
    apply in_or_app. right. simpl. tauto.
Qed.

(** [str.strip] is trimming in the sense of the specification. *)
Lemma strip_is_trim s : str_strip s = Spec.trim s.
Proof.
  unfold str_strip, str_rstrip, Spec.trim.
  rewrite !lstrip_is_skipn.
  set (a := Spec.leading_whitespace s).
  rewrite skipn_rev, rev_involutive.
  pose proof (leading_whitespace_le s) as Ha. fold a in Ha.
  destruct (Nat.eq_dec a (length s)) as [E|N].
  - rewrite E, skipn_all. simpl. rewrite !firstn_nil. reflexivity.
  - fold (Spec.trailing_whitespace (skipn a s)).
    unfold a at 2. rewrite trailing_whitespace_lstrip by (fold a; lia).
    rewrite length_skipn. reflexivity.
Qed.

End StringFacts.

Section ReplaceFacts.

Implicit Types s t old new : pystr.

Lemma pieces_not_nil old skip s : Spec.pieces old skip s <> [].
Proof.
  revert skip. induction s as [|c s IH]; intros skip; simpl; [discriminate|].
  destruct skip as [|k]; [|apply IH].
  destruct (startswith old (c :: s)); [discriminate|].
  destruct (Spec.pieces old 0 s); discriminate.
Qed.

Lemma glue_cons_nonempty new p ps :
  ps <> [] -> Spec.glue new (p :: ps) = p ++ new ++ Spec.glue new ps.
Proof. destruct ps; [congruence | reflexivity]. Qed.

Lemma glue_cons_char new c p ps :
  Spec.glue new ((c :: p) :: ps) = c :: Spec.glue new (p :: ps).
Proof. destruct ps; reflexivity. Qed.

(** The scan of [str.replace] glues the pieces between the occurrences. *)
Lemma replace_scan_is_glue old new skip s :
  replace_scan old new skip s = Spec.glue new (Spec.pieces old skip s).
Proof.
  revert skip. induction s as [|c s IH]; intros skip; [reflexivity|].
  cbn [replace_scan Spec.pieces].
  destruct skip as [|k]; [|apply IH].
  destruct (startswith old (c :: s)).
  - rewrite glue_cons_nonempty by apply pieces_not_nil.
    rewrite IH. reflexivity.
  - rewrite IH. pose proof (pieces_not_nil old 0 s) as Hne.
    destruct (Spec.pieces old 0 s) as [|p ps]; [congruence|].
    rewrite glue_cons_char. reflexivity.
Qed.

Lemma replace_empty_is_glue new s :
  replace_empty new s = Spec.glue new (Spec.pieces_of_empty s).
Proof.
  unfold Spec.pieces_of_empty.
  rewrite glue_cons_nonempty by (destruct s; discriminate).
  cbn [app]. induction s as [|c s IH]; simpl.
  - rewrite app_nil_r. reflexivity.
  - rewrite IH. destruct (List.map (fun c0 => [c0]) s ++ [[]]) eqn:E.
    + destruct s; discriminate.
    + reflexivity.
Qed.

(** [str.replace] is literal substring replacement. *)
Lemma str_replace_is_literal s old new :
  str_replace s old new = Spec.replace_literal s old new.
Proof.
  destruct old as [|a old]; simpl.
  - apply replace_empty_is_glue.
  - apply replace_scan_is_glue.
Qed.

(** A text in which [old] does not occur is left as it is. *)
Lemma str_replace_absent s old new :
  str_in old s = false -> str_replace s old new = s.
Proof.
  destruct old as [|a old]; [destruct s; discriminate|].
  unfold str_replace. induction s as [|c s IH]; [reflexivity|].
  cbn [str_in replace_scan]. intros H.
  apply orb_false_iff in H as [H1 H2]. rewrite H1, IH by exact H2. reflexivity.
Qed.

End ReplaceFacts.

Section StripFacts.

Implicit Types s t : pystr.

Lemma lstrip_head s : head_not_space (str_lstrip s).
Proof.
  induction s as [|c s IH]; simpl; [exact I|].
  destruct (isspace c) eqn:E; [exact IH | exact E].
Qed.

Lemma lstrip_fixed s : head_not_space s -> str_lstrip s = s.
Proof. destruct s as [|c s]; simpl; [reflexivity|]. intros ->. reflexivity. Qed.

Lemma lstrip_suffix s : exists l, s = l ++ str_lstrip s.
Proof.
  induction s as [|c s [l IH]]; simpl; [exists []; reflexivity|].
  destruct (isspace c).
  - exists (c :: l). simpl. f_equal. exact IH.
  - exists []. reflexivity.
Qed.

Lemma rstrip_prefix s : exists t, s = str_rstrip s ++ t.
Proof.
  unfold str_rstrip. destruct (lstrip_suffix (rev s)) as [l E].
  exists (rev l). rewrite <- rev_app_distr, <- E, rev_involutive. reflexivity.
Qed.

Lemma rstrip_head s : head_not_space s -> head_not_space (str_rstrip s).
Proof.
  destruct (rstrip_prefix s) as [t E]. intros H. rewrite E in H.
  destruct (str_rstrip s); [exact I | exact H].
Qed.

Lemma rstrip_idempotent s : str_rstrip (str_rstrip s) = str_rstrip s.
Proof.
  unfold str_rstrip. rewrite rev_involutive.
  rewrite (lstrip_fixed (str_lstrip (rev s))) by apply lstrip_head.
  reflexivity.
Qed.

(** Stripping a stripped text changes nothing. *)
Lemma strip_idempotent s : str_strip (str_strip s) = str_strip s.
Proof.
  unfold str_strip.
  rewrite (lstrip_fixed (str_rstrip (str_lstrip s)))
    by (apply rstrip_head, lstrip_head).
  apply rstrip_idempotent.
Qed.

End StripFacts.

Section CleanFacts.

Variable self : DocumentScraper.

(** The loop of [_clean_text] leaves a text alone in which no find-string
    of the mapping occurs. *)
Lemma replacements_absent (M : dict) (T : pystr) :
  forallb (fun kv => negb (str_in (fst kv) T)) M = true ->
  fold_left (fun text kv => str_replace text (fst kv) (snd kv)) M T = T.
Proof.
  induction M as [|[k v] M IH]; simpl; [reflexivity|].
  intros H. apply andb_true_iff in H as [Hk HM].
  rewrite str_replace_absent by (apply negb_true_iff; exact Hk).
  apply IH, HM.
Qed.

Lemma clean_text_stripped (T : pystr) :
  str_strip (_clean_text self T) = _clean_text self T.
Proof. unfold _clean_text. apply strip_idempotent. Qed.

End CleanFacts.

(** The loop of [_clean_text] applies the replacements of the mapping in
    order. *)
Lemma loop_is_applyReplacements (M : dict) (T : pystr) :
  fold_left (fun text kv => str_replace text (fst kv) (snd kv)) M T
  = Spec.applyReplacements T M.
Proof.
  revert T. induction M as [|[k v] M IH]; intros T; simpl; [reflexivity|].
  rewrite IH, str_replace_is_literal. reflexivity.
Qed.

(** C1: for every mapping M and page text T, cleaning T with M is trimming
    the result of applying the find/replace pairs of M to T as literal
    substring replacements in the order of the mapping; with the empty
    mapping, cleaning T is trimming T. *)
Theorem C1_clean_is_trim_of_replacements :
  forall (p : pystr) (M : dict) (b : bool) (T : pystr),
    _clean_text {| path := p; open_json := M; from_s3_bucket := b |} T
    = Spec.trim (Spec.applyReplacements T M)
    /\ _clean_text {| path := p; open_json := []; from_s3_bucket := b |} T
       = Spec.trim T.
Proof.
  intros p M b T. unfold _clean_text. cbn [open_json].
  rewrite loop_is_applyReplacements, !strip_is_trim. split; reflexivity.
Qed.

(** The scenario of the specification: the mapping Dr. -> Dr. *)
Example clean_text_Dr :
  _clean_text {| path := str "a.pdf"; open_json := [(str "Dr.", str "Dr")];
                 from_s3_bucket := false |}
    (str "  Dr. Smith arrived.  ")
  = str "Dr Smith arrived.".
Proof. reflexivity. Qed.

(** C8, as the code has it: when no find-string of the mapping occurs in
    the cleaned text, cleaning it again returns it unchanged. *)
Theorem C8_clean_idempotent_when_no_find_string_left :
  forall (self : DocumentScraper) (T : pystr),
    forallb (fun kv => negb (str_in (fst kv) (_clean_text self T)))
            (open_json self) = true ->
    _clean_text self (_clean_text self T) = _clean_text self T.
Proof.
  intros self T H. unfold _clean_text at 1.
  rewrite replacements_absent by exact H.
  apply clean_text_stripped.
Qed.

Lemma C8_clean_idempotent_witness :
  let self := {| path := str "a.pdf"; open_json := [(str "Dr.", str "Dr")];
                 from_s3_bucket := false |} in
  let T := str "  Dr. Smith arrived.  " in
  forallb (fun kv => negb (str_in (fst kv) (_clean_text self T)))
          (open_json self) = true
  /\ _clean_text self (_clean_text self T) = _clean_text self T.
Proof.
  split; [reflexivity|].
  apply (C8_clean_idempotent_when_no_find_string_left
           {| path := str "a.pdf"; open_json := [(str "Dr.", str "Dr")];
              from_s3_bucket := false |}
           (str "  Dr. Smith arrived.  ")).
  reflexivity.
Defined.

(** C8, as stated, fails: the mapping ab -> (empty) has no replacement that
    contains a find-string, hence no cycle, yet cleaning "aabb" gives "ab"
    and cleaning "ab" gives the empty text. *)
Lemma C8_idempotence_counterexample :
  let self := {| path := str "a.pdf"; open_json := [(str "ab", str "")];
                 from_s3_bucket := false |} in
  Spec.no_replacement_cycles (open_json self) = true
  /\ _clean_text self (str "aabb") = str "ab"
  /\ _clean_text self (_clean_text self (str "aabb")) = str ""
  /\ _clean_text self (_clean_text self (str "aabb")) <> _clean_text self (str "aabb").
Proof. repeat split; try reflexivity. discriminate. Qed.

(** A chain of two pairs in the wrong order does the same: b -> c, then
    a -> b, sends "a" to "b" and "b" to "c". *)
Example clean_chain_not_idempotent :
  let self := {| path := str "a.pdf";
                 open_json := [(str "b", str "c"); (str "a", str "b")];
                 from_s3_bucket := false |} in
  Spec.no_replacement_cycles (open_json self) = true
  /\ _clean_text self (str "a") = str "b"
  /\ _clean_text self (str "b") = str "c".
Proof. repeat split; reflexivity. Qed.

(** A mapping with a cycle is recognised as such. *)
Example cycle_detected :
  Spec.no_replacement_cycles [(str "a", str "b"); (str "b", str "a")] = false
  /\ Spec.no_replacement_cycles [(str "a", str "aa")] = false.
Proof. split; reflexivity. Qed.

(** ** Runs of the program *)

Section Runs.

Variable env : Env.
Variable self : DocumentScraper.

Lemma for_pages_run (pdf_name : pystr) (pages : list pystr)
    (iter_error : option string) :
  forall (i : nat) (acc : Series) (st : State),
    Series_name acc = None ->
    for_pages self pdf_name i pages iter_error acc st
    = (match iter_error with
       | None =>
           Return {| Series_name := None;
                     Series_values :=
                       Series_values acc ++ List.map (_clean_text self) pages |}
       | Some what => Raise (ParserError what)
       end,
       {| handles := handles st;
          log := log st ++ page_log pdf_name i (length pages) |}).
Proof.
  induction pages as [|page pages IH]; intros i acc st Hname.
  - destruct acc as [n v], st as [h l]. simpl in Hname. subst n.
    unfold page_log. simpl. rewrite !app_nil_r.
    destruct iter_error; reflexivity.
  - cbn [for_pages]. unfold bind at 1. unfold logger at 1.
    rewrite IH.
    + cbn [handles log Series_append Series_values Series_of_scalar length].
      unfold page_log. cbn [seq List.map].
      rewrite <- !app_assoc. reflexivity.
    + simpl. rewrite Hname. reflexivity.
Qed.

Lemma insert_closed (h : list handle_state) :
  <[length h := Closed]> (h ++ [Opened]) = h ++ [Closed].
Proof. induction h as [|x h IH]; simpl; [reflexivity | f_equal; exact IH]. Qed.

(** What [_text_to_series_of_pages] returns and in which state, by cases on
    the file behind the path and on the parser. *)
Lemma text_to_series_run (pdf_name : pystr) (st : State) :
  _text_to_series_of_pages env self pdf_name st
  = match local_fs env (path self) with
    | Absent => (Raise (OSError FileNotFoundError), st)
    | Directory => (Raise (OSError IsADirectoryError), st)
    | File false _ => (Raise (OSError PermissionError), st)
    | File true bytes =>
        match slate3k_PDF_bytes env bytes with
        | inl what => (Raise (ParserError what), left_open st [])
        | inr reader =>
            let new_log := page_log pdf_name 0 (length (PDF_pages reader)) in
            match PDF_iter_error reader with
            | Some what => (Raise (ParserError what), left_open st new_log)
            | None =>
                (Return ({| Series_name := None;
                            Series_values :=
                              List.map (_clean_text self) (PDF_pages reader) |},
                         PDF_len reader),
                 opened_and_closed st new_log)
            end
        end
    end.
Proof.
  unfold _text_to_series_of_pages, os_path_join, bind at 1, open.
  destruct (local_fs env (path self)) as [| |[|] bytes]; try reflexivity.
  unfold bind at 1, slate3k_PDF. cbn [content].
  destruct (slate3k_PDF_bytes env bytes) as [what|reader].
  - unfold raise, left_open. rewrite app_nil_r. reflexivity.
  - unfold ret at 1. unfold bind at 1.
    rewrite for_pages_run by reflexivity.
    cbn [handles log Series_values Series_empty app].
    destruct (PDF_iter_error reader); [reflexivity|].
    unfold bind, close, ret, opened_and_closed. cbn [handles log fileno].
    rewrite insert_closed. reflexivity.
Qed.

(** The same for [document_corpus_to_pandas_df]. *)
Lemma document_corpus_run (st : State) :
  document_corpus_to_pandas_df env self st
  = match local_fs env (path self) with
    | Absent =>
        (Return DataFrame_empty,
         {| handles := handles st;
            log := log st ++ [(WARNING, Not_scraped (path self))] |})
    | _ =>
        let st1 := {| handles := handles st;
                      log := log st ++ [(INFO, Starting_scraping)] |} in
        match _text_to_series_of_pages env self (path self) st1 with
        | (Raise e, st2) => (Raise e, st2)
        | (Return r, st2) =>
            (Return
               (concat_axis1 DataFrame_empty
                  (Series_rename (fst r)
                     (str_replace (path self) (str ".pdf") (str "")))),
             st2)
        end
    end.
Proof.
  unfold document_corpus_to_pandas_df, bind at 1, os_path_exists, ret at 1.
  destruct (local_fs env (path self)) as [| |r bytes]; cbn [negb];
    unfold bind at 1, logger at 1; try reflexivity;
    unfold bind at 1;
    destruct (_text_to_series_of_pages env self (path self) _) as [[r'|e] st2];
    reflexivity.
Qed.

End Runs.

(** ** The program on the example disk *)

Example run_report :
  document_corpus_to_pandas_df Example.env
    (Example.scraper "docs/report.pdf" false) initial_state
  = (Return {| columns :=
                 [(Some (str "docs/report"),
                   [Some (str "Dr Smith arrived."); Some (str "He left.")])] |},
     {| handles := [Closed];
        log := [(INFO, Starting_scraping);
                (DEBUG, Reading_page 1 (str "docs/report.pdf"));
                (DEBUG, Reading_page 2 (str "docs/report.pdf"))] |}).
Proof. vm_compute. reflexivity. Qed.

Example init_reads_config :
  __init__ Example.env (str "docs/report.pdf") (Some (str "cfg/clean.json"))
    false initial_state
  = (Return (Example.scraper "docs/report.pdf" false),
     {| handles := [Closed];
        log := [(INFO, Reading_json (str "cfg/clean.json"))] |}).
Proof. vm_compute. reflexivity. Qed.

Example open_directory :
  fst (_text_to_series_of_pages Example.env (Example.scraper "docs" false)
         (str "docs") initial_state)
  = Raise (OSError IsADirectoryError).
Proof. vm_compute. reflexivity. Qed.

(** ** The page pipeline *)

(** C2: when the parser reports N pages and yields N page texts, the
    function [_text_to_series_of_pages] returns the N cleaned texts, in page
    order, with the page count N. *)
Theorem C2_series_has_every_page_in_order :
  forall (env : Env) (self : DocumentScraper) (pdf_name : pystr) (st : State)
         (bytes : list Byte.byte) (reader : PDF) (N : nat),
    local_fs env (path self) = File true bytes ->
    slate3k_PDF_bytes env bytes = inr reader ->
    PDF_len reader = N ->
    length (PDF_pages reader) = N ->
    PDF_iter_error reader = None ->
    exists series,
      fst (_text_to_series_of_pages env self pdf_name st) = Return (series, N)
      /\ Series_values series = List.map (_clean_text self) (PDF_pages reader)
      /\ length (Series_values series) = N.
Proof.
  intros env self pdf_name st bytes reader N Hfs Hparse Hlen Hpages Hiter.
  rewrite text_to_series_run, Hfs, Hparse. cbv zeta. rewrite Hiter, Hlen.
  eexists. split; [reflexivity|]. split; [reflexivity|].
  cbn [Series_values]. rewrite length_map. exact Hpages.
Qed.

Lemma C2_series_witness :
  exists series,
    fst (_text_to_series_of_pages Example.env
           (Example.scraper "docs/report.pdf" false) (str "report.pdf")
           initial_state) = Return (series, 2)
    /\ Series_values series
       = List.map (_clean_text (Example.scraper "docs/report.pdf" false))
           (PDF_pages Example.report)
    /\ length (Series_values series) = 2.
Proof.
  apply (C2_series_has_every_page_in_order Example.env
           (Example.scraper "docs/report.pdf" false) (str "report.pdf")
           initial_state Example.good_pdf Example.report 2);
    vm_compute; reflexivity.
Defined.

(** C3: for a path that does not exist, [document_corpus_to_pandas_df] logs
    a warning and returns the empty DataFrame; it raises nothing and opens
    no file. *)
Theorem C3_missing_path_gives_empty_table :
  forall (env : Env) (self : DocumentScraper) (st : State),
    fst (os_path_exists env (path self) st) = Return false ->
    document_corpus_to_pandas_df env self st
    = (Return DataFrame_empty,
       {| handles := handles st;
          log := log st ++ [(WARNING, Not_scraped (path self))] |}).
Proof.
  intros env self st H. rewrite document_corpus_run.
  unfold os_path_exists, ret in H. cbn [fst] in H.
  destruct (local_fs env (path self)); [reflexivity | discriminate | discriminate].
Qed.

Lemma C3_missing_path_witness :
  fst (os_path_exists Example.env (str "docs/missing.pdf") initial_state)
  = Return false
  /\ document_corpus_to_pandas_df Example.env
       (Example.scraper "docs/missing.pdf" false) initial_state
     = (Return DataFrame_empty,
        {| handles := [];
           log := [(WARNING, Not_scraped (str "docs/missing.pdf"))] |}).
Proof.
  split; [vm_compute; reflexivity|].
  apply (C3_missing_path_gives_empty_table Example.env
           (Example.scraper "docs/missing.pdf" false) initial_state).
  vm_compute. reflexivity.
Defined.

(** C4: for an existing path with a document the parser cannot parse,
    [_text_to_series_of_pages] raises the parser's exception and
    [document_corpus_to_pandas_df] raises it too: it does not catch it and
    return an empty table. *)
Theorem C4_parse_failure_propagates :
  forall (env : Env) (self : DocumentScraper) (pdf_name : pystr) (st : State)
         (bytes : list Byte.byte) (what : string),
    local_fs env (path self) = File true bytes ->
    unparsable env bytes what ->
    fst (_text_to_series_of_pages env self pdf_name st) = Raise (ParserError what)
    /\ fst (document_corpus_to_pandas_df env self st) = Raise (ParserError what).
Proof.
  intros env self pdf_name st bytes what Hfs Hbad.
  rewrite document_corpus_run, Hfs. cbv zeta.
  rewrite !text_to_series_run, Hfs.
  destruct Hbad as [Hctor | (reader & Hctor & Hiter)]; rewrite Hctor.
  - split; reflexivity.
  - cbv zeta. rewrite Hiter. split; reflexivity.
Qed.

Lemma C4_parse_failure_witness :
  fst (_text_to_series_of_pages Example.env
         (Example.scraper "docs/broken.pdf" false) (str "broken.pdf")
         initial_state) = Raise (ParserError "PDFSyntaxError")
  /\ fst (document_corpus_to_pandas_df Example.env
            (Example.scraper "docs/broken.pdf" false) initial_state)
     = Raise (ParserError "PDFSyntaxError").
Proof.
  apply (C4_parse_failure_propagates Example.env
           (Example.scraper "docs/broken.pdf" false) (str "broken.pdf")
           initial_state Example.broken_pdf "PDFSyntaxError").
  - vm_compute. reflexivity.
  - left. vm_compute. reflexivity.
Defined.

(** ** The file handle *)

(** When the document is parsed and iterated to its end, the handle that was
    opened is closed. *)
Lemma handle_closed_on_success :
  forall (env : Env) (self : DocumentScraper) (pdf_name : pystr) (st : State)
         (bytes : list Byte.byte) (reader : PDF),
    local_fs env (path self) = File true bytes ->
    slate3k_PDF_bytes env bytes = inr reader ->
    PDF_iter_error reader = None ->
    handles (snd (_text_to_series_of_pages env self pdf_name st))
    = handles st ++ [Closed].
Proof.
  intros env self pdf_name st bytes reader Hfs Hparse Hiter.
  rewrite text_to_series_run, Hfs, Hparse. cbv zeta. rewrite Hiter. reflexivity.
Qed.

(** When the parser raises, at construction or during the iteration, the
    handle that was opened stays open: [pdf.close()] is never reached. *)
Lemma handle_left_open_on_parse_failure :
  forall (env : Env) (self : DocumentScraper) (pdf_name : pystr) (st : State)
         (bytes : list Byte.byte) (what : string),
    local_fs env (path self) = File true bytes ->
    unparsable env bytes what ->
    handles (snd (_text_to_series_of_pages env self pdf_name st))
    = handles st ++ [Opened].
Proof.
  intros env self pdf_name st bytes what Hfs Hbad.
  rewrite text_to_series_run, Hfs.
  destruct Hbad as [Hctor | (reader & Hctor & Hiter)]; rewrite Hctor.
  - reflexivity.
  - cbv zeta. rewrite Hiter. reflexivity.
Qed.

(** [_read_config] closes the file it opens, whether [json.load] returns or
    raises. *)
Lemma read_config_closes :
  forall (env : Env) (json_filename : pystr) (st : State) (bytes : list Byte.byte),
    str_in (str ".json") json_filename = true ->
    local_fs env json_filename = File true bytes ->
    handles (snd (_read_config env (Some json_filename) st))
    = handles st ++ [Closed].
Proof.
  intros env name st bytes Hname Hfs.
  unfold _read_config, bind at 1, logger at 1, bind at 1, assert.
  rewrite Hname. unfold ret at 1, with_open, bind, open.
  cbn [handles log]. rewrite Hfs. unfold finally, json_load. cbn [content].
  destruct (json_load_bytes env bytes); unfold raise, ret, close;
    cbn [snd handles fileno]; apply insert_closed.
Qed.

(** C5, at a document the parser rejects: the call raises and the handle it
    opened, number 0, is still open in the final state. *)
Theorem C5_handle_open_after_parse_failure :
  _text_to_series_of_pages Example.env
    (Example.scraper "docs/broken.pdf" false) (str "broken.pdf") initial_state
  = (Raise (ParserError "PDFSyntaxError"),
     {| handles := [Opened]; log := [] |}).
Proof. vm_compute. reflexivity. Qed.

(** ** The column key *)

(** Whenever [document_corpus_to_pandas_df] returns a table with a column,
    it has one column, and its key is the path given to the constructor
    with every occurrence of ".pdf" removed. *)
Lemma column_key_is_path_without_pdf :
  forall (env : Env) (self : DocumentScraper) (st : State) (df : DataFrame),
    fst (document_corpus_to_pandas_df env self st) = Return df ->
    columns df <> [] ->
    List.map fst (columns df)
    = [Some (str_replace (path self) (str ".pdf") (str ""))].
Proof.
  intros env self st df Hrun Hcols. rewrite document_corpus_run in Hrun.
  destruct (local_fs env (path self)); cbv zeta in Hrun.
  - injection Hrun as <-. contradiction.
  - destruct (_text_to_series_of_pages env self (path self) _) as [[r|e] st2];
      [|discriminate].
    injection Hrun as <-. reflexivity.
  - destruct (_text_to_series_of_pages env self (path self) _) as [[r|e] st2];
      [|discriminate].
    injection Hrun as <-. reflexivity.
Qed.

(** C6, at the path docs/report.pdf: the key of the column is docs/report,
    while the base filename without the PDF extension is report. *)
Theorem C6_column_key_keeps_the_directory :
  fst (document_corpus_to_pandas_df Example.env
         (Example.scraper "docs/report.pdf" false) initial_state)
  = Return {| columns :=
                [(Some (str "docs/report"),
                  [Some (str "Dr Smith arrived."); Some (str "He left.")])] |}
  /\ Spec.document_identifier (str "docs/report.pdf") = str "report"
  /\ str "docs/report" <> str "report".
Proof. repeat split; try (vm_compute; reflexivity). discriminate. Qed.

(** Not only the extension goes: ".pdf" is removed wherever it occurs. *)
Example column_key_inner_pdf :
  str_replace (str "a.pdfs/b.pdf") (str ".pdf") (str "") = str "as/b".
Proof. reflexivity. Qed.

(** ** The configuration loader *)

(** The format check of [_read_config] is a test for a substring: the
    AssertionError is raised when the name does not contain ".json", and
    never when it does. *)
Lemma read_config_check_is_substring_test :
  forall (env : Env) (json_filename : pystr) (st : State),
    (str_in (str ".json") json_filename = false ->
     fst (_read_config env (Some json_filename) st)
     = Raise (AssertionError
                "The json_filename provided does not correspond to a .json file."))
    /\ (str_in (str ".json") json_filename = true ->
        forall msg : string,
          fst (_read_config env (Some json_filename) st)
          <> Raise (AssertionError msg)).
Proof.
  intros env name st. split; intros Hname.
  - unfold _read_config, bind at 1, logger at 1, bind at 1, assert.
    rewrite Hname. reflexivity.
  - intros msg.
    unfold _read_config, bind at 1, logger at 1, bind at 1, assert.
    rewrite Hname. unfold ret at 1, with_open, bind, open.
    destruct (local_fs env name) as [| |[|] bytes]; try discriminate.
    unfold finally, json_load, close. cbn [content].
    destruct (json_load_bytes env bytes); discriminate.
Qed.

Section JsonNames.

Implicit Types p s t sub : pystr.

Lemma startswith_app p t : startswith p (p ++ t) = true.
Proof.
  induction p as [|a p IH]; simpl; [reflexivity|].
  rewrite N.eqb_refl. exact IH.
Qed.

Lemma startswith_split p s : startswith p s = true -> exists t, s = p ++ t.
Proof.
  revert s. induction p as [|a p IH]; intros s; simpl.
  - exists s. reflexivity.
  - destruct s as [|b s]; [discriminate|]. intros H.
    apply andb_true_iff in H as [Hab H]. apply N.eqb_eq in Hab. subst b.
    destruct (IH s H) as [t ->]. exists t. reflexivity.
Qed.

Lemma str_in_suffix sub t : str_in sub (t ++ sub) = true.
Proof.
  induction t as [|c t IH].
  - simpl. destruct sub as [|a sub]; [reflexivity|].
    cbn [str_in]. rewrite <- (app_nil_r (a :: sub)) at 2.
    rewrite startswith_app. reflexivity.
  - cbn [app str_in]. rewrite IH. apply orb_true_r.
Qed.

(** The other direction of the check is sound: the name of a .json file
    passes it, so [_read_config] never raises the AssertionError for it. *)
Lemma json_file_passes_the_check (env : Env) (name : pystr) (st : State) :
  Spec.indicates_json name = true ->
  forall msg : string,
    fst (_read_config env (Some name) st) <> Raise (AssertionError msg).
Proof.
  unfold Spec.indicates_json. intros H.
  apply startswith_split in H as [t E].
  apply (f_equal (@rev char)) in E.
  rewrite rev_involutive, rev_app_distr, rev_involutive in E. subst name.
  apply (proj2 (read_config_check_is_substring_test env _ st)).
  apply str_in_suffix.
Qed.

End JsonNames.

(** C7, at the names cfg/clean.json.bak and my.json.d/readme.txt: neither is
    the name of a .json file, yet both contain ".json", so the assert lets
    them through and [_read_config] returns the mapping read from the file
    in place of raising the AssertionError of the format check. *)
Theorem C7_json_inside_the_name_passes_the_check :
  Spec.indicates_json (str "cfg/clean.json.bak") = false
  /\ _read_config Example3.env (Some (str "cfg/clean.json.bak")) initial_state
     = (Return [(str "Dr.", str "Dr")],
        {| handles := [Closed];
           log := [(INFO, Reading_json (str "cfg/clean.json.bak"))] |})
  /\ Spec.indicates_json (str "my.json.d/readme.txt") = false
  /\ _read_config Example3.env (Some (str "my.json.d/readme.txt")) initial_state
     = (Return [(str "Dr.", str "Dr")],
        {| handles := [Closed];
           log := [(INFO, Reading_json (str "my.json.d/readme.txt"))] |}).
Proof. repeat split; vm_compute; reflexivity. Qed.

(** A name without ".json" anywhere is rejected, as the claim has it. *)
Example read_config_rejects_txt :
  Spec.indicates_json (str "notes.txt") = false
  /\ fst (_read_config Example.env (Some (str "notes.txt")) initial_state)
     = Raise (AssertionError
                "The json_filename provided does not correspond to a .json file.").
Proof. split; vm_compute; reflexivity. Qed.

(** The test is for a substring, so a name such as clean.json.bak passes it. *)
Example json_in_the_middle : str_in (str ".json") (str "clean.json.bak") = true.
Proof. reflexivity. Qed.

(** Without a configuration source the mapping is empty. *)
Example read_config_none (env : Env) (st : State) :
  _read_config env None st
  = (Return [], {| handles := handles st;
                   log := log st ++ [(WARNING, No_json_provided)] |}).
Proof. reflexivity. Qed.

(** ** The storage backend *)

(** The flag [from_s3_bucket] and the content of the S3 store have no
    influence on what [_text_to_series_of_pages] does. *)
Lemma storage_flag_ignored :
  forall (env : Env) (p : pystr) (M : dict) (b1 b2 : bool)
         (s3 : pystr -> option (list Byte.byte)) (pdf_name : pystr) (st : State),
    _text_to_series_of_pages
      {| local_fs := local_fs env; s3_bucket := s3;
         json_load_bytes := json_load_bytes env;
         slate3k_PDF_bytes := slate3k_PDF_bytes env |}
      {| path := p; open_json := M; from_s3_bucket := b1 |} pdf_name st
    = _text_to_series_of_pages env
        {| path := p; open_json := M; from_s3_bucket := b2 |} pdf_name st.
Proof. intros. rewrite !text_to_series_run. reflexivity. Qed.

(** C9, with the flag set and a document that is in the S3 store and not on
    the local disk: the path is looked up on the local disk, so that
    [_text_to_series_of_pages] raises FileNotFoundError and
    [document_corpus_to_pandas_df] returns the empty table. *)
Theorem C9_flag_set_reads_the_local_disk :
  from_s3_bucket (Example.scraper "s3://bucket/remote.pdf" true) = true
  /\ s3_bucket Example.env (str "s3://bucket/remote.pdf") = Some Example.good_pdf
  /\ _text_to_series_of_pages Example.env
       (Example.scraper "s3://bucket/remote.pdf" true) (str "remote.pdf")
       initial_state
     = (Raise (OSError FileNotFoundError), initial_state)
  /\ document_corpus_to_pandas_df Example.env
       (Example.scraper "s3://bucket/remote.pdf" true) initial_state
     = (Return DataFrame_empty,
        {| handles := [];
           log := [(WARNING, Not_scraped (str "s3://bucket/remote.pdf"))] |}).
Proof. repeat split; vm_compute; reflexivity. Qed.

(** ** The argument pdf_name *)

(** C10: for any two values of [pdf_name], [_text_to_series_of_pages]
    returns the same result (or raises the same exception) and leaves the
    same handles; the argument shows only in the messages logged. *)
Theorem C10_pdf_name_only_logged :
  forall (env : Env) (self : DocumentScraper) (st : State) (name1 name2 : pystr),
    fst (_text_to_series_of_pages env self name1 st)
    = fst (_text_to_series_of_pages env self name2 st)
    /\ handles (snd (_text_to_series_of_pages env self name1 st))
       = handles (snd (_text_to_series_of_pages env self name2 st))
    /\ exists k : nat,
         forall name : pystr,
           log (snd (_text_to_series_of_pages env self name st))
           = log st ++ page_log name 0 k.
Proof.
  intros env self st name1 name2.
  assert (Hnil : forall name, log st = log st ++ page_log name 0 0)
    by (intros; unfold page_log; simpl; rewrite app_nil_r; reflexivity).
  split; [|split].
  1, 2: rewrite !text_to_series_run;
    destruct (local_fs env (path self)) as [| |[|] bytes]; try reflexivity;
    destruct (slate3k_PDF_bytes env bytes) as [what|reader]; try reflexivity;
    cbv zeta; destruct (PDF_iter_error reader); reflexivity.
  destruct (local_fs env (path self)) as [| |[|] bytes] eqn:Hfs.
  1, 2, 4: exists 0; intros name; rewrite text_to_series_run, Hfs; apply Hnil.
  destruct (slate3k_PDF_bytes env bytes) as [what|reader] eqn:Hparse.
  - exists 0. intros name. rewrite text_to_series_run, Hfs, Hparse.
    cbn [snd left_open log]. rewrite app_nil_r. apply Hnil.
  - exists (length (PDF_pages reader)). intros name.
    rewrite text_to_series_run, Hfs, Hparse. cbv zeta.
    destruct (PDF_iter_error reader); reflexivity.
Qed.

(** ** Further properties of the constructor and the configuration loader *)

(** X1: without a configuration file the constructor cannot fail: it logs
    one warning, opens no file, keeps the path and the flag it was given,
    and the scraper it makes cleans a text by stripping it only. *)
Theorem X1_init_without_config :
  forall (env : Env) (p : pystr) (b : bool) (st : State) (T : pystr),
    exists self : DocumentScraper,
      __init__ env p None b st
      = (Return self,
         {| handles := handles st;
            log := log st ++ [(WARNING, No_json_provided)] |})
      /\ path self = p
      /\ from_s3_bucket self = b
      /\ open_json self = []
      /\ _clean_text self T = str_strip T.
Proof.
  intros env p b st T.
  exists {| path := p; open_json := []; from_s3_bucket := b |}.
  repeat split; reflexivity.
Qed.

(** What [_read_config] does for a name that passes the format check, by
    cases on the file and on [json.load]. *)
Lemma read_config_run (env : Env) (name : pystr) (st : State) :
  str_in (str ".json") name = true ->
  _read_config env (Some name) st
  = let st1 := {| handles := handles st;
                  log := log st ++ [(INFO, Reading_json name)] |} in
    match local_fs env name with
    | Absent => (Raise (OSError FileNotFoundError), st1)
    | Directory => (Raise (OSError IsADirectoryError), st1)
    | File false _ => (Raise (OSError PermissionError), st1)
    | File true bytes =>
        (match json_load_bytes env bytes with
         | inl e => Raise (JSONError e)
         | inr d => Return d
         end,
         {| handles := handles st ++ [Closed];
            log := log st ++ [(INFO, Reading_json name)] |})
    end.
Proof.
  intros Hname.
  unfold _read_config, bind at 1, logger at 1, bind at 1, assert.
  rewrite Hname. unfold ret at 1, with_open, bind, open. cbn [handles log].
  destruct (local_fs env name) as [| |[|] bytes]; try reflexivity.
  unfold finally, json_load, close. cbn [content].
  destruct (json_load_bytes env bytes); unfold raise, ret;
    cbn [handles log fileno]; rewrite insert_closed; reflexivity.
Qed.

(** X2: [_read_config] never leaves a file open and logs exactly one
    message: whatever its argument and its outcome, the table of handles is
    afterwards the one before, or the one before with one closed handle
    more. *)
Theorem X2_read_config_leaves_no_handle_open :
  forall (env : Env) (json_filename : option pystr) (st : State),
    (handles (snd (_read_config env json_filename st)) = handles st
     \/ handles (snd (_read_config env json_filename st))
        = handles st ++ [Closed])
    /\ exists m, log (snd (_read_config env json_filename st)) = log st ++ [m].
Proof.
  intros env [name|] st.
  - destruct (str_in (str ".json") name) eqn:Hname.
    + rewrite read_config_run by exact Hname. cbv zeta.
      destruct (local_fs env name) as [| |[|] bytes]; cbn [snd handles log];
        (split; [tauto | eexists; reflexivity]).
    + unfold _read_config, bind at 1, logger at 1, bind at 1, assert.
      rewrite Hname. cbn [raise snd handles log].
      split; [tauto | eexists; reflexivity].
  - split; [left; reflexivity | eexists; reflexivity].
Qed.

(** X3: with a configuration file whose name contains ".json", which can be
    read and holds a JSON object, the constructor returns a scraper with
    that object as its mapping, the path and the flag as given, and the
    file closed again. *)
Theorem X3_init_loads_the_mapping :
  forall (env : Env) (p json_filename : pystr) (b : bool) (st : State)
         (bytes : list Byte.byte) (d : dict),
    str_in (str ".json") json_filename = true ->
    local_fs env json_filename = File true bytes ->
    json_load_bytes env bytes = inr d ->
    __init__ env p (Some json_filename) b st
    = (Return {| path := p; open_json := d; from_s3_bucket := b |},
       {| handles := handles st ++ [Closed];
          log := log st ++ [(INFO, Reading_json json_filename)] |}).
Proof.
  intros env p name b st bytes d Hname Hfs Hjson.
  unfold __init__, bind. rewrite read_config_run by exact Hname.
  cbv zeta. rewrite Hfs, Hjson. reflexivity.
Qed.

Lemma X3_init_loads_witness :
  __init__ Example.env (str "docs/report.pdf") (Some (str "cfg/clean.json"))
    true initial_state
  = (Return {| path := str "docs/report.pdf";
               open_json := [(str "Dr.", str "Dr")];
               from_s3_bucket := true |},
     {| handles := [] ++ [Closed];
        log := [] ++ [(INFO, Reading_json (str "cfg/clean.json"))] |}).
Proof.
  apply (X3_init_loads_the_mapping Example.env (str "docs/report.pdf")
           (str "cfg/clean.json") true initial_state Example.clean_json
           [(str "Dr.", str "Dr")]); vm_compute; reflexivity.
Defined.

(** X4: when the configuration file can be opened and [json.load] rejects
    its content, the constructor raises the error of [json.load], makes no
    scraper, and the file is closed all the same. *)
Theorem X4_init_bad_json_raises_and_closes :
  forall (env : Env) (p json_filename : pystr) (b : bool) (st : State)
         (bytes : list Byte.byte) (e : json_error),
    str_in (str ".json") json_filename = true ->
    local_fs env json_filename = File true bytes ->
    json_load_bytes env bytes = inl e ->
    __init__ env p (Some json_filename) b st
    = (Raise (JSONError e),
       {| handles := handles st ++ [Closed];
          log := log st ++ [(INFO, Reading_json json_filename)] |}).
Proof.
  intros env p name b st bytes e Hname Hfs Hjson.
  unfold __init__, bind. rewrite read_config_run by exact Hname.
  cbv zeta. rewrite Hfs, Hjson. reflexivity.
Qed.

(** X5: when the configuration file has a name with ".json" and is not there,
    the constructor raises FileNotFoundError and no handle is opened. *)
Theorem X5_init_missing_json_raises :
  forall (env : Env) (p json_filename : pystr) (b : bool) (st : State),
    str_in (str ".json") json_filename = true ->
    local_fs env json_filename = Absent ->
    __init__ env p (Some json_filename) b st
    = (Raise (OSError FileNotFoundError),
       {| handles := handles st;
          log := log st ++ [(INFO, Reading_json json_filename)] |}).
Proof.
  intros env p name b st Hname Hfs.
  unfold __init__, bind. rewrite read_config_run by exact Hname.
  cbv zeta. rewrite Hfs. reflexivity.
Qed.

Lemma X5_init_missing_json_witness :
  __init__ Example.env (str "docs/report.pdf") (Some (str "cfg/none.json"))
    false initial_state
  = (Raise (OSError FileNotFoundError),
     {| handles := [];
        log := [] ++ [(INFO, Reading_json (str "cfg/none.json"))] |}).
Proof.
  apply (X5_init_missing_json_raises Example.env (str "docs/report.pdf")
           (str "cfg/none.json") false initial_state); vm_compute; reflexivity.
Defined.

Lemma X4_init_bad_json_witness :
  __init__ Example2.env (str "docs/report.pdf") (Some (str "cfg/bad.json"))
    false initial_state
  = (Raise (JSONError JSONDecodeError),
     {| handles := [] ++ [Closed];
        log := [] ++ [(INFO, Reading_json (str "cfg/bad.json"))] |}).
Proof.
  apply (X4_init_bad_json_raises_and_closes Example2.env (str "docs/report.pdf")
           (str "cfg/bad.json") false initial_state Example.broken_pdf
           JSONDecodeError); vm_compute; reflexivity.
Defined.

(** ** Further properties of the page pipeline and the table *)

(** X6: called on a path that does not exist, [_text_to_series_of_pages]
    raises FileNotFoundError and changes nothing: only
    [document_corpus_to_pandas_df] turns the missing path into an empty
    table. *)
Theorem X6_direct_call_on_missing_path_raises :
  forall (env : Env) (self : DocumentScraper) (pdf_name : pystr) (st : State),
    local_fs env (path self) = Absent ->
    _text_to_series_of_pages env self pdf_name st
    = (Raise (OSError FileNotFoundError), st).
Proof.
  intros env self pdf_name st Hfs. rewrite text_to_series_run, Hfs. reflexivity.
Qed.

Lemma X6_direct_call_witness :
  _text_to_series_of_pages Example.env (Example.scraper "docs/missing.pdf" false)
    (str "missing.pdf") initial_state
  = (Raise (OSError FileNotFoundError), initial_state).
Proof.
  apply (X6_direct_call_on_missing_path_raises Example.env
           (Example.scraper "docs/missing.pdf" false) (str "missing.pdf")
           initial_state).
  vm_compute. reflexivity.
Defined.

(** X7: [document_corpus_to_pandas_df] never raises FileNotFoundError: the
    test with [os.path.exists] comes before [open], so a path that is not
    there gives the empty table, and a path that is there is not reported
    missing by [open]. *)
Theorem X7_document_corpus_never_file_not_found :
  forall (env : Env) (self : DocumentScraper) (st : State),
    fst (document_corpus_to_pandas_df env self st)
    <> Raise (OSError FileNotFoundError).
Proof.
  intros env self st. rewrite document_corpus_run.
  destruct (local_fs env (path self)) as [| |[|] bytes] eqn:Hfs; cbv zeta;
    try discriminate; rewrite text_to_series_run, Hfs; try discriminate.
  destruct (slate3k_PDF_bytes env bytes) as [what|reader]; [discriminate|].
  cbv zeta. destruct (PDF_iter_error reader); discriminate.
Qed.



(** X9: [document_corpus_to_pandas_df] touches no handle that was there
    before and opens at most one.  When it returns, the handle it opened (if
    any) is closed; when it raises, it opened none or left one open. *)
Theorem X9_document_corpus_handles :
  forall (env : Env) (self : DocumentScraper) (st : State),
    exists hs : list handle_state,
      handles (snd (document_corpus_to_pandas_df env self st))
      = handles st ++ hs
      /\ match fst (document_corpus_to_pandas_df env self st) with
         | Return _ => hs = [] \/ hs = [Closed]
         | Raise _ => hs = [] \/ hs = [Opened]
         end.
Proof.
  intros env self st. rewrite document_corpus_run.
  destruct (local_fs env (path self)) as [| |[|] bytes] eqn:Hfs; cbv zeta;
    try rewrite text_to_series_run, Hfs.
  - exists []. cbn [snd fst handles]. rewrite app_nil_r. tauto.
  - exists []. cbn [snd fst handles]. rewrite app_nil_r. tauto.
  - destruct (slate3k_PDF_bytes env bytes) as [what|reader].
    + exists [Opened]. cbn. tauto.
    + cbv zeta. destruct (PDF_iter_error reader).
      * exists [Opened]. cbn. tauto.
      * exists [Closed]. cbn. tauto.
  - exists []. cbn [snd fst handles]. rewrite app_nil_r. tauto.
Qed.

(** X10: when the document is parsed and iterated to its end, the table has
    one column, keyed by the path without ".pdf", with one row for every
    page text the parser yielded, cleaned and in page order.  The page count
    the parser reports plays no part. *)
Theorem X10_table_of_a_parsed_document :
  forall (env : Env) (self : DocumentScraper) (st : State)
         (bytes : list Byte.byte) (reader : PDF),
    local_fs env (path self) = File true bytes ->
    slate3k_PDF_bytes env bytes = inr reader ->
    PDF_iter_error reader = None ->
    fst (document_corpus_to_pandas_df env self st)
    = Return
        {| columns :=
             [(Some (str_replace (path self) (str ".pdf") (str "")),
               List.map (fun page => Some (_clean_text self page))
                 (PDF_pages reader))] |}.
Proof.
  intros env self st bytes reader Hfs Hparse Hiter.
  rewrite document_corpus_run, Hfs. cbv zeta.
  rewrite text_to_series_run, Hfs, Hparse. cbv zeta. rewrite Hiter.
  cbn [fst]. unfold concat_axis1, Series_rename, pad.
  cbn [columns DataFrame_empty List.map app Series_values Series_name
       DataFrame_rows foldr].
  rewrite !length_map, Nat.max_0_l, Nat.sub_diag. cbn [repeat].
  rewrite app_nil_r, map_map. reflexivity.
Qed.

Lemma X10_table_witness :
  fst (document_corpus_to_pandas_df Example.env
         (Example.scraper "docs/report.pdf" false) initial_state)
  = Return
      {| columns :=
           [(Some (str_replace (path (Example.scraper "docs/report.pdf" false))
                     (str ".pdf") (str "")),
             List.map
               (fun page =>
                  Some (_clean_text (Example.scraper "docs/report.pdf" false) page))
               (PDF_pages Example.report))] |}.
Proof.
  apply (X10_table_of_a_parsed_document Example.env
           (Example.scraper "docs/report.pdf" false) initial_state
           Example.good_pdf Example.report); vm_compute; reflexivity.
Defined.

(** X11: the table returned does not depend on the handles and the log that
    earlier calls left behind; a second call returns what the first did. *)
Theorem X11_table_independent_of_state :
  forall (env : Env) (self : DocumentScraper) (st1 st2 : State),
    fst (document_corpus_to_pandas_df env self st1)
    = fst (document_corpus_to_pandas_df env self st2).
Proof.
  intros env self st1 st2. rewrite !document_corpus_run.
  destruct (local_fs env (path self)) as [| |[|] bytes] eqn:Hfs; cbv zeta;
    try rewrite !text_to_series_run, Hfs; try reflexivity.
  destruct (slate3k_PDF_bytes env bytes) as [what|reader]; [reflexivity|].
  cbv zeta. destruct (PDF_iter_error reader); reflexivity.
Qed.

(** X12: the loop logs one debug message for every page text the parser
    yields, numbered from 1 in page order and carrying [pdf_name], whether
    or not the iteration ends with an exception. *)
Theorem X12_one_debug_message_per_page :
  forall (env : Env) (self : DocumentScraper) (pdf_name : pystr) (st : State)
         (bytes : list Byte.byte) (reader : PDF),
    local_fs env (path self) = File true bytes ->
    slate3k_PDF_bytes env bytes = inr reader ->
    log (snd (_text_to_series_of_pages env self pdf_name st))
    = log st
      ++ List.map (fun number => (DEBUG, Reading_page number pdf_name))
           (seq 1 (length (PDF_pages reader))).
Proof.
  intros env self pdf_name st bytes reader Hfs Hparse.
  rewrite text_to_series_run, Hfs, Hparse. cbv zeta.
  assert (E : page_log pdf_name 0 (length (PDF_pages reader))
              = List.map (fun number => (DEBUG, Reading_page number pdf_name))
                  (seq 1 (length (PDF_pages reader)))).
  { unfold page_log. rewrite <- seq_shift, map_map.
    apply map_ext. intros j. rewrite Nat.add_1_r. reflexivity. }
  destruct (PDF_iter_error reader); cbn [snd left_open opened_and_closed log];
    rewrite E; reflexivity.
Qed.

Lemma X12_debug_messages_witness :
  log (snd (_text_to_series_of_pages Example.env
              (Example.scraper "docs/report.pdf" false) (str "report.pdf")
              initial_state))
  = log initial_state
    ++ List.map (fun number => (DEBUG, Reading_page number (str "report.pdf")))
         (seq 1 (length (PDF_pages Example.report))).
Proof.
  apply (X12_one_debug_message_per_page Example.env
           (Example.scraper "docs/report.pdf" false) (str "report.pdf")
           initial_state Example.good_pdf Example.report);
    vm_compute; reflexivity.
Defined.

(** ** Further properties of text cleaning *)

Section MoreStringFacts.

Implicit Types s t old new : pystr.

Lemma lstrip_incl s c : In c (str_lstrip s) -> In c s.
Proof.
  destruct (lstrip_suffix s) as [l E]. intros H. rewrite E.
  apply in_or_app. right. exact H.
Qed.

Lemma strip_incl s c : In c (str_strip s) -> In c s.
Proof.
  unfold str_strip, str_rstrip. intros H.
  rewrite <- in_rev in H. apply lstrip_incl in H.
  rewrite <- in_rev in H. apply lstrip_incl, H.
Qed.

Lemma lstrip_length s : length (str_lstrip s) <= length s.
Proof.
  destruct (lstrip_suffix s) as [l E]. rewrite E at 2. rewrite length_app. lia.
Qed.

Lemma strip_length s : length (str_strip s) <= length s.
Proof.
  unfold str_strip, str_rstrip. rewrite length_rev.
  etransitivity; [apply lstrip_length|]. rewrite length_rev.
  apply lstrip_length.
Qed.

(** The characters of a replaced text are those of the text and of the
    replacement. *)
Lemma replace_scan_incl old new c s :
  forall skip, In c (replace_scan old new skip s) -> In c s \/ In c new.
Proof.
  induction s as [|d s IH]; intros skip; cbn [replace_scan]; [tauto|].
  destruct skip as [|k].
  - destruct (startswith old (d :: s)).
    + intros H. apply in_app_or in H as [H|H]; [tauto|].
      apply IH in H. simpl. tauto.
    + intros [->|H]; [simpl; tauto|]. apply IH in H. simpl. tauto.
  - intros H. apply IH in H. simpl. tauto.
Qed.

Lemma replace_empty_incl new c s :
  In c (replace_empty new s) -> In c s \/ In c new.
Proof.
  induction s as [|d s IH]; cbn [replace_empty]; [tauto|].
  intros H. apply in_app_or in H as [H|[->|H]]; simpl; tauto.
Qed.

Lemma str_replace_incl s old new c :
  In c (str_replace s old new) -> In c s \/ In c new.
Proof.
  destruct old; [apply replace_empty_incl | apply replace_scan_incl].
Qed.

Lemma startswith_length old s : startswith old s = true -> length old <= length s.
Proof.
  revert s. induction old as [|a old IH]; intros [|b s]; simpl;
    try lia; try discriminate.
  intros H. apply andb_true_iff in H as [_ H]. apply IH in H. lia.
Qed.

(** A replacement no longer than what it replaces does not lengthen the
    text. *)
Lemma replace_scan_length old new s :
  length new <= length old ->
  forall skip, length (replace_scan old new skip s) <= length s - skip.
Proof.
  intros Hle. induction s as [|d s IH]; intros skip; cbn [replace_scan];
    [simpl; lia|].
  destruct skip as [|k].
  - destruct (startswith old (d :: s)) eqn:E.
    + apply startswith_length in E. rewrite length_app.
      specialize (IH (length old - 1)). simpl in *. lia.
    + specialize (IH 0). simpl in *. lia.
  - specialize (IH k). simpl. lia.
Qed.

(** A path that is a name without dots followed by ".pdf" loses exactly the
    extension. *)
Lemma replace_pdf_extension stem :
  existsb (N.eqb 0x2E) stem = false ->
  str_replace (stem ++ str ".pdf") (str ".pdf") (str "") = stem.
Proof.
  unfold str_replace. change (str ".pdf") with [0x2E; 0x70; 0x64; 0x66]%N.
  induction stem as [|c stem IH]; [reflexivity|].
  cbn [existsb]. intros H. apply orb_false_iff in H as [Hc Hstem].
  cbn [app replace_scan startswith]. rewrite Hc. cbn [andb].
  f_equal. apply IH, Hstem.
Qed.

End MoreStringFacts.

(** X13: a cleaned text neither starts nor ends with a whitespace
    character. *)
Theorem X13_clean_text_has_no_outer_whitespace :
  forall (self : DocumentScraper) (T : pystr),
    head_not_space (_clean_text self T)
    /\ head_not_space (rev (_clean_text self T)).
Proof.
  intros self T. unfold _clean_text, str_strip. split.
  - apply rstrip_head, lstrip_head.
  - unfold str_rstrip. rewrite rev_involutive. apply lstrip_head.
Qed.

(** X14: when no find-string of the mapping occurs in a text, cleaning it is
    stripping it. *)
Theorem X14_clean_without_occurrence_is_strip :
  forall (self : DocumentScraper) (T : pystr),
    forallb (fun kv => negb (str_in (fst kv) T)) (open_json self) = true ->
    _clean_text self T = str_strip T.
Proof.
  intros self T H. unfold _clean_text.
  rewrite replacements_absent by exact H. reflexivity.
Qed.

Lemma X14_clean_without_occurrence_witness :
  _clean_text (Example.scraper "docs/report.pdf" false) (str " He left. ")
  = str_strip (str " He left. ").
Proof.
  apply (X14_clean_without_occurrence_is_strip
           (Example.scraper "docs/report.pdf" false) (str " He left. ")).
  vm_compute. reflexivity.
Defined.

(** X15: cleaning invents no character: every character of the cleaned text
    is a character of the page text or of a replacement of the mapping. *)
Theorem X15_clean_text_invents_no_character :
  forall (self : DocumentScraper) (T : pystr) (c : char),
    In c (_clean_text self T) ->
    In c T \/ exists kv, In kv (open_json self) /\ In c (snd kv).
Proof.
  intros self T c H. unfold _clean_text in H. apply strip_incl in H.
  revert T H. induction (open_json self) as [|[k v] M IH]; intros T H;
    cbn [fold_left] in H; [left; exact H|].
  apply IH in H as [H|(kv & Hin & Hc)].
  - cbn [fst snd] in H. apply str_replace_incl in H as [H|H]; [left; exact H|].
    right. exists (k, v). split; [left; reflexivity | exact H].
  - right. exists kv. split; [right; exact Hin | exact Hc].
Qed.

Lemma X15_clean_text_witness :
  In 0x44%N (str "  Dr. Smith arrived.  ")
  \/ exists kv, In kv (open_json (Example.scraper "docs/report.pdf" false))
                /\ In 0x44%N (snd kv).
Proof.
  apply (X15_clean_text_invents_no_character
           (Example.scraper "docs/report.pdf" false)
           (str "  Dr. Smith arrived.  ") 0x44%N).
  vm_compute. left. reflexivity.
Defined.

(** X16: when no find-string is empty and no replacement is longer than its
    find-string, the cleaned text is not longer than the page text. *)
Theorem X16_clean_text_does_not_lengthen :
  forall (self : DocumentScraper) (T : pystr),
    Forall (fun kv => fst kv <> [] /\ length (snd kv) <= length (fst kv))
           (open_json self) ->
    length (_clean_text self T) <= length T.
Proof.
  intros self T H. unfold _clean_text.
  etransitivity; [apply strip_length|].
  revert T. induction H as [|[k v] M [Hk Hv] _ IH]; intros T;
    cbn [fold_left]; [lia|].
  etransitivity; [apply IH|]. cbn [fst snd] in *.
  destruct k as [|a k]; [congruence|]. unfold str_replace.
  pose proof (replace_scan_length (a :: k) v T Hv 0). lia.
Qed.

Lemma X16_clean_text_length_witness :
  length (_clean_text (Example.scraper "docs/report.pdf" false)
            (str "  Dr. Smith arrived.  "))
  <= length (str "  Dr. Smith arrived.  ").
Proof.
  apply (X16_clean_text_does_not_lengthen
           (Example.scraper "docs/report.pdf" false)
           (str "  Dr. Smith arrived.  ")).
  repeat constructor; try discriminate.
Defined.

(** X17: an empty page text stays empty when no find-string of the mapping
    is empty. *)
Theorem X17_clean_empty_page :
  forall (self : DocumentScraper),
    Forall (fun kv => fst kv <> []) (open_json self) ->
    _clean_text self [] = [].
Proof.
  intros self H. unfold _clean_text.
  assert (E : fold_left (fun text kv => str_replace text (fst kv) (snd kv))
                (open_json self) [] = []).
  { induction H as [|[k v] M Hk _ IH]; cbn [fold_left]; [reflexivity|].
    cbn [fst snd] in *. destruct k as [|a k]; [congruence|]. exact IH. }
  rewrite E. reflexivity.
Qed.

Lemma X17_clean_empty_page_witness :
  _clean_text (Example.scraper "docs/report.pdf" false) [] = [].
Proof.
  apply (X17_clean_empty_page (Example.scraper "docs/report.pdf" false)).
  repeat constructor; discriminate.
Defined.

(** An empty find-string does match the empty page: with the mapping
    (empty) -> x it becomes x. *)
Example clean_empty_find_string :
  _clean_text {| path := str "a.pdf"; open_json := [(str "", str "x")];
                 from_s3_bucket := false |} (str "")
  = str "x".
Proof. reflexivity. Qed.

(** X18: for a path that is a name without dots followed by ".pdf", the key
    of the column is that name: the extension is removed and nothing
    else. *)
Theorem X18_column_key_of_plain_name :
  forall (env : Env) (self : DocumentScraper) (st : State) (df : DataFrame)
         (stem : pystr),
    path self = stem ++ str ".pdf" ->
    existsb (N.eqb 0x2E) stem = false ->
    fst (document_corpus_to_pandas_df env self st) = Return df ->
    columns df <> [] ->
    List.map fst (columns df) = [Some stem].
Proof.
  intros env self st df stem Hpath Hstem Hrun Hcols.
  rewrite (column_key_is_path_without_pdf env self st df Hrun Hcols).
  rewrite Hpath, replace_pdf_extension by exact Hstem. reflexivity.
Qed.

Lemma X18_column_key_witness :
  List.map fst
    (columns
       {| columns :=
            [(Some (str "docs/report"),
              [Some (str "Dr Smith arrived."); Some (str "He left.")])] |})
  = [Some (str "docs/report")].
Proof.
  apply (X18_column_key_of_plain_name Example.env
           (Example.scraper "docs/report.pdf" false) initial_state
           {| columns :=
                [(Some (str "docs/report"),
                  [Some (str "Dr Smith arrived."); Some (str "He left.")])] |}
           (str "docs/report")).
  - vm_compute. reflexivity.
  - vm_compute. reflexivity.
  - vm_compute. reflexivity.
  - discriminate.
Defined.

(** ** Mappings of single characters are idempotent *)

Section CharacterMappings.

Lemma existsb_eqb_In (c : char) (l : list char) :
  existsb (N.eqb c) l = true <-> In c l.
Proof.
  rewrite existsb_exists. split.
  - intros (d & Hin & E). apply N.eqb_eq in E. subst d. exact Hin.
  - intros Hin. exists c. split; [exact Hin | apply N.eqb_refl].
Qed.

Lemma str_in_single (k : char) (s : pystr) : str_in [k] s = true -> In k s.
Proof.
  induction s as [|d s IH]; cbn [str_in startswith]; [discriminate|].
  intros H. apply orb_true_iff in H as [H|H].
  - apply andb_true_iff in H as [H _]. apply N.eqb_eq in H. left. congruence.
  - right. apply IH, H.
Qed.

(** Replacing the character [k] leaves no [k], when the replacement has
    none. *)
Lemma replace_char_removed (k : char) (v s : pystr) :
  ~ In k v -> ~ In k (replace_scan [k] v 0 s).
Proof.
  intros Hv. induction s as [|d s IH]; cbn [replace_scan startswith length Nat.sub];
    [tauto|].
  destruct (N.eqb_spec k d) as [E|N]; cbn [andb].
  - intros H. apply in_app_or in H. tauto.
  - intros [E|H]; [congruence | tauto].
Qed.

(** The loop of [_clean_text] removes the find characters for good: what was
    absent stays absent ([A]), and the find characters of [M] are absent at
    the end, as long as no replacement brings one of [Q] back. *)
Lemma replacements_remove_find_characters (Q : list char) (M : dict) :
  Forall (fun kv => length (fst kv) = 1 /\ forall c, In c (snd kv) -> ~ In c Q) M ->
  forall (A : list char) (T : pystr),
    (forall c, In c A -> In c Q /\ ~ In c T) ->
    (forall c, In c (find_characters M) -> In c Q) ->
    forall c, In c A \/ In c (find_characters M) ->
      ~ In c (fold_left (fun text kv => str_replace text (fst kv) (snd kv)) M T).
Proof.
  induction 1 as [|[ks v] M [Hlen Hv] _ IH]; intros A T HA HQ c Hc;
    cbn [fold_left].
  - destruct Hc as [Hc|[]]. apply HA, Hc.
  - cbn [fst snd] in *. destruct ks as [|k [|? ?]]; try discriminate.
    unfold find_characters in HQ, Hc. cbn [List.map concat app] in HQ, Hc.
    fold (find_characters M) in HQ, Hc.
    apply (IH (k :: A)).
    + intros d [<-|Hd].
      * split; [apply HQ; left; reflexivity|].
        apply replace_char_removed. intros Hin. apply (Hv _ Hin), HQ.
        left. reflexivity.
      * destruct (HA d Hd) as [HdQ HdT]. split; [exact HdQ|].
        intros Hin. apply replace_scan_incl in Hin as [Hin|Hin]; [tauto|].
        exact (Hv _ Hin HdQ).
    + intros d Hd. apply HQ. right. exact Hd.
    + simpl in Hc |- *. tauto.
Qed.

End CharacterMappings.

(** X19: for a mapping whose find-strings are single characters and whose
    replacements contain none of these characters, cleaning is idempotent on
    every page text. *)
Theorem X19_character_mapping_idempotent :
  forall (self : DocumentScraper) (T : pystr),
    character_mapping (open_json self) = true ->
    _clean_text self (_clean_text self T) = _clean_text self T.
Proof.
  intros self T H. unfold character_mapping in H.
  rewrite forallb_forall in H.
  assert (HM : Forall (fun kv => length (fst kv) = 1
                        /\ forall c, In c (snd kv)
                                     -> ~ In c (find_characters (open_json self)))
                 (open_json self)).
  { apply List.Forall_forall. intros kv Hin. specialize (H kv Hin).
    apply andb_true_iff in H as [Hlen Hv]. apply Nat.eqb_eq in Hlen.
    split; [exact Hlen|]. intros c Hc Hfc.
    rewrite forallb_forall in Hv. specialize (Hv c Hc).
    apply negb_true_iff in Hv. apply existsb_eqb_In in Hfc. congruence. }
  pose proof (replacements_remove_find_characters _ _ HM [] T) as Hgone.
  unfold _clean_text at 1.
  rewrite replacements_absent; [apply clean_text_stripped|].
  apply forallb_forall. intros [ks v] Hin. apply negb_true_iff.
  pose proof (proj1 (List.Forall_forall _ _) HM (ks, v) Hin) as [Hlen _].
  cbn [fst] in *.
  destruct (str_in ks (_clean_text self T)) eqn:E; [exfalso|reflexivity].
  destruct ks as [|k [|? ?]]; try discriminate Hlen.
  apply str_in_single in E. unfold _clean_text in E. apply strip_incl in E.
  revert E. apply Hgone.
  - intros c [].
  - intros c Hc. exact Hc.
  - right. unfold find_characters. apply in_concat. exists [k].
    split; [|left; reflexivity].
    change [k] with (fst ([k], v)). apply in_map, Hin.
Qed.

Lemma X19_character_mapping_witness :
  let self := {| path := str "a.pdf";
                 open_json := [(str ";", str ","); (str "_", str " ")];
                 from_s3_bucket := false |} in
  _clean_text self (_clean_text self (str " a;b_c;_ ")) 
  = _clean_text self (str " a;b_c;_ ").
Proof.
  apply (X19_character_mapping_idempotent
           {| path := str "a.pdf";
              open_json := [(str ";", str ","); (str "_", str " ")];
              from_s3_bucket := false |} (str " a;b_c;_ ")).
  vm_compute. reflexivity.
Defined.

(** ** The pipeline from end to end *)

(** X20: [_text_to_series_of_pages] returns the page count the parser
    reports as it is, beside an unnamed series with one row for every page
    text yielded: when the two differ, the count is not corrected. *)
Theorem X20_reported_count_is_returned :
  forall (env : Env) (self : DocumentScraper) (pdf_name : pystr) (st : State)
         (bytes : list Byte.byte) (reader : PDF),
    local_fs env (path self) = File true bytes ->
    slate3k_PDF_bytes env bytes = inr reader ->
    PDF_iter_error reader = None ->
    fst (_text_to_series_of_pages env self pdf_name st)
    = Return ({| Series_name := None;
                 Series_values := List.map (_clean_text self) (PDF_pages reader) |},
              PDF_len reader).
Proof.
  intros env self pdf_name st bytes reader Hfs Hparse Hiter.
  rewrite text_to_series_run, Hfs, Hparse. cbv zeta. rewrite Hiter. reflexivity.
Qed.

Lemma X20_reported_count_witness :
  fst (_text_to_series_of_pages Example.env
         (Example.scraper "docs/report.pdf" false) (str "report.pdf")
         initial_state)
  = Return ({| Series_name := None;
               Series_values :=
                 List.map (_clean_text (Example.scraper "docs/report.pdf" false))
                   (PDF_pages Example.report) |},
            PDF_len Example.report).
Proof.
  apply (X20_reported_count_is_returned Example.env
           (Example.scraper "docs/report.pdf" false) (str "report.pdf")
           initial_state Example.good_pdf Example.report);
    vm_compute; reflexivity.
Defined.

(** X21: construction and scraping together.  With a configuration file
    that loads and a document that parses, the table holds the pages cleaned
    with the mapping of the file, both files are closed at the end, and the
    log has the two info messages followed by one debug message per page,
    which names the path. *)
Theorem X21_construct_then_scrape :
  forall (env : Env) (p json_filename : pystr) (b : bool) (st : State)
         (json_bytes : list Byte.byte) (d : dict)
         (bytes : list Byte.byte) (reader : PDF),
    str_in (str ".json") json_filename = true ->
    local_fs env json_filename = File true json_bytes ->
    json_load_bytes env json_bytes = inr d ->
    local_fs env p = File true bytes ->
    slate3k_PDF_bytes env bytes = inr reader ->
    PDF_iter_error reader = None ->
    bind (__init__ env p (Some json_filename) b)
         (document_corpus_to_pandas_df env) st
    = (Return
         {| columns :=
              [(Some (str_replace p (str ".pdf") (str "")),
                List.map
                  (fun page =>
                     Some (_clean_text
                             {| path := p; open_json := d; from_s3_bucket := b |}
                             page))
                  (PDF_pages reader))] |},
       {| handles := handles st ++ [Closed; Closed];
          log := log st
                 ++ [(INFO, Reading_json json_filename); (INFO, Starting_scraping)]
                 ++ List.map (fun number => (DEBUG, Reading_page number p))
                      (seq 1 (length (PDF_pages reader))) |}).
Proof.
  intros env p name b st json_bytes d bytes reader
         Hname Hjfs Hjson Hfs Hparse Hiter.
  unfold bind at 1, __init__, bind at 1.
  rewrite read_config_run by exact Hname. cbv zeta. rewrite Hjfs, Hjson.
  unfold ret at 1. rewrite document_corpus_run. cbn [path]. rewrite Hfs. cbv zeta.
  rewrite text_to_series_run. cbn [path]. rewrite Hfs, Hparse. cbv zeta.
  rewrite Hiter.
  cbn [fst]. unfold concat_axis1, Series_rename, pad, opened_and_closed.
  cbn [columns DataFrame_empty List.map app Series_values Series_name
       DataFrame_rows foldr handles log].
  rewrite !length_map, Nat.max_0_l, Nat.sub_diag. cbn [repeat].
  rewrite app_nil_r, map_map. f_equal. f_equal.
  - rewrite <- !app_assoc. reflexivity.
  - unfold page_log. rewrite <- seq_shift, map_map, <- !app_assoc.
    cbn [app]. do 3 f_equal. apply map_ext. intros j.
    rewrite Nat.add_1_r. reflexivity.
Qed.

Lemma X21_construct_then_scrape_witness :
  bind (__init__ Example.env (str "docs/report.pdf")
          (Some (str "cfg/clean.json")) false)
       (document_corpus_to_pandas_df Example.env) initial_state
  = (Return
       {| columns :=
            [(Some (str_replace (str "docs/report.pdf") (str ".pdf") (str "")),
              List.map
                (fun page =>
                   Some (_clean_text
                           {| path := str "docs/report.pdf";
                              open_json := [(str "Dr.", str "Dr")];
                              from_s3_bucket := false |}
                           page))
                (PDF_pages Example.report))] |},
     {| handles := handles initial_state ++ [Closed; Closed];
        log := log initial_state
               ++ [(INFO, Reading_json (str "cfg/clean.json"));
                   (INFO, Starting_scraping)]
               ++ List.map
                    (fun number =>
                       (DEBUG, Reading_page number (str "docs/report.pdf")))
                    (seq 1 (length (PDF_pages Example.report))) |}).
Proof.
  apply (X21_construct_then_scrape Example.env (str "docs/report.pdf")
           (str "cfg/clean.json") false initial_state Example.clean_json
           [(str "Dr.", str "Dr")] Example.good_pdf Example.report);
    vm_compute; reflexivity.
Defined.
